(** * LLM-Document-Chat: the notebook [redis-openAI-doc-chat.ipynb]

    A shallow embedding of the notebook's own code: the environment it
    reads, the Redis connection string it builds, and the order in which its
    cells call the libraries it drives (llama_index, redis, trulens_eval).
    The libraries themselves are not part of the repository; their replies
    are supplied by a [World]. *)

From Stdlib Require Import ZArith Floats.
From stdpp Require Import base option list strings gmap.

(** ** Python values the notebook handles *)

Module Py.

(** [os.environ]: a mapping from variable names to strings. *)
Abbreviation environ := (gmap string string).

(** [os.getenv(key, default)]: the value of [key], or [default] (itself
    [None] when omitted) if the variable is unset. *)
Definition getenv (env : environ) (key : string) (default : option string)
  : option string :=
  match env !! key with
  | Some v => Some v
  | None => default
  end.

(** How an f-string replacement field prints a value that is a [str] or
    [None]: [str(None)] is the text "None". *)
Definition format_value (v : option string) : string :=
  match v with
  | Some s => s
  | None => "None"
  end.

(** [str.startswith]. *)
Definition startswith (s pre : string) : bool := String.prefix pre s.

(** Exceptions, by class. The notebook's own code can raise the three
    builtins; [Other] is any class raised from inside a library call. *)
Inductive exn :=
| TypeError
| ValueError
| IndexError
| Other (cls : string).

(** What evaluating a Python expression or statement ends in. *)
Inductive outcome (A : Type) :=
| Returned (a : A)
| Raised (e : exn).
Arguments Returned {A} a.
Arguments Raised {A} e.

End Py.

(** ** Cell [fd85f591]: the Redis connection string *)

Module Redis.
Import Py.

(** [format_redis_conn_from_env(using_ssl)], reading [os.environ]. The
    local [start] is rebound where the source updates it with [+=]. *)
Definition format_redis_conn_from_env (env : environ) (using_ssl : bool)
  : string :=
  let start := if using_ssl then "rediss://" else "redis://" in
  let password := getenv env "REDIS_PASSWORD" None in
  let username := getenv env "REDIS_USERNAME" (Some "") in
  let start :=
    if bool_decide (password ≠ None)
    then start +:+ (format_value username +:+ ":" +:+ format_value password +:+ "@")
    else start in
  start +:+ (format_value (getenv env "REDIS_HOST" None) +:+ ":"
             +:+ format_value (getenv env "REDIS_PORT" None)).

(** The format the specification gives for a connection string,
    [scheme://[username:password@]host:port], as a record of its parts
    and the text they spell. This follows the specification's words and
    is what the function above is compared with. *)
Record conn_string := ConnString {
  use_tls : bool;
  credentials : option (string * string);
  host : string;
  port : string
}.

Definition scheme (tls : bool) : string := if tls then "rediss" else "redis".

Definition render_credentials (c : option (string * string)) : string :=
  match c with
  | Some (username, password) => username +:+ ":" +:+ password +:+ "@"
  | None => ""
  end.

Definition render (c : conn_string) : string :=
  scheme (use_tls c) +:+ "://" +:+ render_credentials (credentials c)
    +:+ host c +:+ ":" +:+ port c.

End Redis.

(** ** The libraries the notebook calls *)

Module Lib.
Import Py.

(** One constructor per library entry point the notebook calls, with the
    arguments the notebook computes itself. *)
Inductive call :=
| PipInstall
| ImportModules
| LoadDotenv (override : bool)
| AzureOpenAI (model deployment_name api_key azure_endpoint api_version : option string)
| LLMPredictor
| AzureOpenAIEmbedding (model deployment_name api_key azure_endpoint api_version : option string)
| LoadData (input_dir : string)
| PromptHelper (max_input_size num_output : Z) (max_chunk_overlap : float)
| ServiceContextFromDefaults
| RedisVectorStore (index_name index_prefix redis_url : string) (overwrite : bool)
| ClientPing
| StorageContextFromDefaults
| FromDocuments
| AsQueryEngine
| Query (question : string)
| ResponseStr
| Tru
| ResetDatabase
| NestAsyncioApply
| FeedbackProvider (deployment_name api_key api_version azure_endpoint : option string)
| Feedback (name implementation : string) (aggregate : option string)
| SelectSourceNodes
| Groundedness
| TruLlama (app_id : string) (feedbacks : list string)
| RecorderEnter
| RecorderExit (exc : option exn)
| GetRecordsAndFeedback
| RecordsHead
| SetOption
| RecordsColumns
| GetLeaderboard
| RunDashboard.

(** What lies outside the notebook: the [.env] file, the documents
    directory, the builtins' number parsing, and how each library call
    answers given the calls made before it. *)
Record World := {
  dotenv_values : environ;
  documents_found : list string;
  int_of_str : string -> option Z;
  float_of_str : string -> option float;
  raises : list call -> call -> option exn;
  exit_suppresses : list call -> exn -> bool
}.

(** The pipeline stage a call belongs to; [None] for set-up calls that
    only build clients, configuration or reports. *)
Inductive stage := Extraction | Indexing | Querying | Evaluation.

Definition stage_of (c : call) : option stage :=
  match c with
  | LoadData _ => Some Extraction
  | RedisVectorStore _ _ _ _ | ClientPing | FromDocuments => Some Indexing
  | Query _ | ResponseStr => Some Querying
  | RecorderEnter | RecorderExit _ => Some Evaluation
  | _ => None
  end.

(** The questions put to the query engine, in call order. *)
Fixpoint queries_of (cs : list call) : list string :=
  match cs with
  | [] => []
  | Query q :: cs => q :: queries_of cs
  | _ :: cs => queries_of cs
  end.

End Lib.

(** ** Running cells *)

Module Run.
Import Py Lib.

(** The kernel state the model follows: [os.environ] and the library
    calls made so far, oldest first. *)
Record state := State {
  os_environ : environ;
  calls : list call
}.

(** A computation runs from a state to a state and either returns or
    raises. *)
Definition M (A : Type) : Type := state -> state * outcome A.

Global Instance M_ret : MRet M := fun A a s => (s, Returned a).

Global Instance M_bind : MBind M := fun A B k m s =>
  match m s with
  | (s', Returned a) => k a s'
  | (s', Raised e) => (s', Raised e)
  end.

Global Instance M_throw : MThrow exn M := fun A e s => (s, Raised e).

(** [try: m except BaseException as e: ...], handing the outcome to the
    continuation. *)
Definition try {A} (m : M A) : M (outcome A) := fun s =>
  let '(s', r) := m s in (s', Returned r).

Definition get_environ : M environ := fun s => (s, Returned (os_environ s)).

Definition set_environ (env : environ) : M unit := fun s =>
  (State env (calls s), Returned tt).

Definition get_calls : M (list call) := fun s => (s, Returned (calls s)).

(** [wp m s Q]: running [m] from [s] ends in a state and outcome that
    satisfy [Q]. Every computation of [M] is total, so this is a total
    correctness statement. *)
Definition wp {A} (m : M A) (s : state) (Q : state -> outcome A -> Prop) : Prop :=
  Q (m s).1 (m s).2.

Section WithWorld.
Context (W : World).

(** A library call: it is recorded, then raises or returns as the
    world says. *)
Definition lib (c : call) : M unit := fun s =>
  let s' := State (os_environ s) (calls s ++ [c]) in
  match raises W (calls s) c with
  | Some e => (s', Raised e)
  | None => (s', Returned tt)
  end.

(** [os.getenv(key)] and [os.getenv(key, default)]. *)
Definition os_getenv (key : string) (default : option string)
  : M (option string) :=
  env ← get_environ; mret (getenv env key default).

(** [int(v)] for [v] a [str] or [None]. *)
Definition int (v : option string) : M Z :=
  match v with
  | None => mthrow TypeError
  | Some s =>
      match int_of_str W s with
      | Some z => mret z
      | None => mthrow ValueError
      end
  end.

(** [float(v)] for [v] a [str] or [None]. *)
Definition float_ (v : option string) : M float :=
  match v with
  | None => mthrow TypeError
  | Some s =>
      match float_of_str W s with
      | Some x => mret x
      | None => mthrow ValueError
      end
  end.

(** [xs[0]]. *)
Definition item0 {A} (xs : list A) : M A :=
  match xs with
  | x :: _ => mret x
  | [] => mthrow IndexError
  end.

(** [with tru_recorder as recording: body]. [__exit__] receives the
    exception the body raised, if any; the exception is dropped when
    [__exit__] returns a true value and re-raised otherwise. *)
Definition with_recorder (body : M unit) : M unit :=
  lib RecorderEnter;;
  r ← try body;
  match r with
  | Returned _ => lib (RecorderExit None)
  | Raised e =>
      lib (RecorderExit (Some e));;
      hist ← get_calls;
      if exit_suppresses W hist e then mret tt else mthrow e
  end.

(** [for x in xs: body], with no [break] in the body. *)
Fixpoint for_in {A} (xs : list A) (body : A -> M unit) : M unit :=
  match xs with
  | [] => mret tt
  | x :: xs => body x;; for_in xs body
  end.

End WithWorld.

End Run.

(** ** The notebook, cell by cell

    Each code cell is a computation named after its cell id. Cells run in
    file order, once each, and the first exception ends the run (Run All).
    [print] only writes to the cell output and is left out, though the
    expressions it is given are evaluated; a chained construction such as
    [Feedback(...).on_input().on(...).aggregate(...)] is one library
    call. *)

Module Notebook.
Import Py Lib Run Redis.

(** The names bound by cell [32a77108]. *)
Record azure_settings := AzureSettings {
  api_base : option string;
  api_version : option string;
  api_key : option string;
  embedding_model : option string;
  text_model : option string;
  embedding_model_deployment : option string;
  text_model_deployment : option string
}.

(** Cell [9cc8d6be]. *)
Definition eval_questions : list string :=
  [ "What types of variants are available for the Chevrolet Colorado?";
    "What are the main differences between the three engine types available for the Chevy Colorado?";
    "What is the maximum towing capacity of the chevy colorado?" ].

Section Cells.
Context (W : World).

Definition cell_949e6cf1 : M unit := lib W PipInstall.

Definition cell_47264e32 : M unit := lib W ImportModules.

(** [load_dotenv(override=True)]: the values of the [.env] file
    replace those already in [os.environ]. *)
Definition cell_b917ab1f : M unit :=
  lib W (LoadDotenv true);;
  env ← get_environ;
  set_environ (dotenv_values W ∪ env).

Definition cell_32a77108 : M azure_settings :=
  api_base ← os_getenv "AZURE_API_BASE" None;
  api_version ← os_getenv "AZURE_API_VERSION" None;
  api_key ← os_getenv "AZURE_API_KEY" None;
  embedding_model ← os_getenv "AZURE_EMBEDDING_MODEL" None;
  text_model ← os_getenv "AZURE_TEXT_MODEL" None;
  embedding_model_deployment ← os_getenv "AZURE_EMBED_MODEL_DEPLOYMENT_NAME" None;
  text_model_deployment ← os_getenv "AZURE_TEXT_MODEL_DEPLOYMENT_NAME" None;
  mret (AzureSettings api_base api_version api_key embedding_model text_model
          embedding_model_deployment text_model_deployment).

Definition cell_c67d58db (az : azure_settings) : M unit :=
  lib W (AzureOpenAI (text_model az) (text_model_deployment az) (api_key az)
           (api_base az) (api_version az));;
  lib W LLMPredictor;;
  lib W (AzureOpenAIEmbedding (embedding_model az) (embedding_model_deployment az)
           (api_key az) (api_base az) (api_version az)).

(** [documents[0]] is evaluated for the print of its [doc_id]. *)
Definition cell_68cbd239 : M (list string) :=
  lib W (LoadData "./docs");;
  let documents := documents_found W in
  item0 documents;;
  mret documents.

Definition cell_147e7678 : M unit :=
  v ← os_getenv "OPENAI_MAX_TOKENS" None;
  num_output ← int W v;
  v ← os_getenv "CHUNK_SIZE" None;
  max_input_size ← int W v;
  v ← os_getenv "CHUNK_OVERLAP" None;
  max_chunk_overlap ← float_ W v;
  lib W (PromptHelper max_input_size num_output max_chunk_overlap).

Definition cell_132b7b01 : M unit := lib W ServiceContextFromDefaults.

Definition cell_fd85f591 : M string :=
  env ← get_environ;
  mret (format_redis_conn_from_env env false).

Definition cell_30b0d59f (redis_url : string) : M unit :=
  lib W (RedisVectorStore "chevy_docs" "blog" redis_url true);;
  lib W ClientPing.

Definition cell_ba1558b3 : M unit :=
  lib W StorageContextFromDefaults;;
  lib W FromDocuments.

Definition cell_35369eda : M unit :=
  lib W AsQueryEngine;;
  lib W (Query "What types of variants are available for the Chevrolet Colorado?");;
  lib W ResponseStr.

Definition cell_99212d33 : M unit :=
  lib W (Query "What is the maximum towing capacity of the chevy colorado?");;
  lib W ResponseStr.

Definition cell_4a028452 : M unit :=
  lib W (Query "What are the main differences between the three engine types available for the Chevy Colorado?");;
  lib W ResponseStr.

Definition cell_0a2b908c : M unit := lib W Tru;; lib W ResetDatabase.

Definition cell_5bcb03f9 (az : azure_settings) : M unit :=
  lib W NestAsyncioApply;;
  lib W (FeedbackProvider (text_model_deployment az) (api_key az)
           (api_version az) (api_base az)).

Definition cell_09bf4523 : M unit :=
  lib W (Feedback "Answer Relevance" "relevance_with_cot_reasons" None).

Definition cell_e20e85c4 : M unit := lib W SelectSourceNodes.

Definition cell_56e79c1d : M unit :=
  lib W (Feedback "Context Relevance" "qs_relevance" (Some "np.mean")).

Definition cell_d8aa5973 : M unit :=
  lib W (Feedback "Context Relevance" "qs_relevance_with_cot_reasons" (Some "np.mean")).

Definition cell_3ddb1ac9 : M unit := lib W Groundedness.

Definition cell_cb1de2fd : M unit :=
  lib W (Feedback "Groundedness" "groundedness_measure_with_cot_reasons"
           (Some "grounded_statements_aggregator")).

Definition cell_341afb0f : M unit :=
  lib W (TruLlama "Redis_Azure_OpenAI"
           ["Answer Relevance"; "Context Relevance"; "Groundedness"]).

(** The body of the evaluation loop. *)
Definition record_query (question : string) : M unit :=
  with_recorder W (lib W (Query question)).

Definition cell_6572b079 (questions : list string) : M unit :=
  for_in questions record_query.

Definition cell_9c639f5c : M unit := lib W GetRecordsAndFeedback;; lib W RecordsHead.

Definition cell_4032aa97 : M unit := lib W SetOption;; lib W RecordsColumns.

Definition cell_6c6a18e4 : M unit := lib W GetLeaderboard.

Definition cell_0edca9cb : M unit := lib W RunDashboard.

(** The cells in order, each run once; the first exception ends the
    run. Split where the claims need it. *)
Definition setup : M azure_settings :=
  cell_949e6cf1;;
  cell_47264e32;;
  cell_b917ab1f;;
  az ← cell_32a77108;
  cell_c67d58db az;;
  cell_68cbd239;;
  mret az.

Definition ingest_and_query : M unit :=
  cell_132b7b01;;
  redis_url ← cell_fd85f591;
  cell_30b0d59f redis_url;;
  cell_ba1558b3;;
  cell_35369eda;;
  cell_99212d33;;
  cell_4a028452.

Definition define_feedback (az : azure_settings) : M unit :=
  cell_0a2b908c;;
  cell_5bcb03f9 az;;
  cell_09bf4523;;
  cell_e20e85c4;;
  cell_56e79c1d;;
  cell_d8aa5973;;
  cell_3ddb1ac9;;
  cell_cb1de2fd;;
  cell_341afb0f.

Definition report : M unit :=
  cell_9c639f5c;;
  cell_4032aa97;;
  cell_6c6a18e4;;
  cell_0edca9cb.

Definition before_evaluation : M unit :=
  az ← setup;
  cell_147e7678;;
  ingest_and_query;;
  define_feedback az.

Definition notebook : M unit :=
  before_evaluation;;
  cell_6572b079 eval_questions;;
  report.

End Cells.

(** A run starts from the process environment with no call made. *)
Definition run_all (W : World) (env : environ) : state * outcome unit :=
  notebook W (State env []).

End Notebook.

(** ** What the specification asks of a run *)

Module Spec.
Import Py Lib Run Notebook.

(** The error class the specification names for a bad configuration.
    No statement of the notebook raises it; only a library could. *)
Definition ConfigurationError : exn := Other "ConfigurationError".

(** The variables holding [max_output_tokens], [max_chunk_size] and
    [chunk_overlap]. *)
Definition numeric_keys : list string :=
  ["OPENAI_MAX_TOKENS"; "CHUNK_SIZE"; "CHUNK_OVERLAP"].

(** A key is missing when neither the process environment nor the
    [.env] file sets it. *)
Definition missing (W : World) (env : environ) (key : string) : Prop :=
  (dotenv_values W ∪ env) !! key = None.

(** "Missing required keys fail fast with ConfigurationError before any
    pipeline step executes", for the numeric keys. *)
Definition fails_fast (W : World) (env : environ) : Prop :=
  (∃ key, key ∈ numeric_keys ∧ missing W env key) ->
  ∃ s', run_all W env = (s', Raised ConfigurationError)
        ∧ Forall (fun c => stage_of c = None) (calls s').

(** Calls that build clients and configuration, or read the documents. *)
Definition before_indexing (c : call) : Prop :=
  stage_of c = None ∨ stage_of c = Some Extraction.

(** The library calls of the cells before the prompt-helper cell
    [147e7678]: installation, imports, [load_dotenv], the three client
    constructors and the directory reader. [PromptHelper] and everything
    after it are excluded. *)
Definition setup_call (c : call) : Prop :=
  match c with
  | PipInstall | ImportModules | LoadDotenv _
  | AzureOpenAI _ _ _ _ _ | LLMPredictor | AzureOpenAIEmbedding _ _ _ _ _
  | LoadData _ => True
  | _ => False
  end.

(** A world in which the library calls of those earlier cells do not
    raise; any later call may. *)
Definition earlier_calls_succeed (W : World) : Prop :=
  ∀ h c, setup_call c -> raises W h c = None.

(** A world in which no library call raises. *)
Definition libraries_succeed (W : World) : Prop :=
  ∀ h c, raises W h c = None.

(** The calls made between two states of one run. *)
Definition new_calls (s s' : state) : list call :=
  drop (length (calls s)) (calls s').

(** "Errors during one query abort only that query; other queries in a
    batch continue": whatever happens, every question of the batch is
    put to the query engine by the loop. *)
Definition batch_continues (W : World) (s : state) (questions : list string)
  : Prop :=
  ∀ q, q ∈ questions ->
       q ∈ queries_of (new_calls s (cell_6572b079 W questions s).1).

End Spec.

(** ** Concrete worlds and environments *)

Module Worlds.
Import Py Lib Run Notebook.

(** [int] on a string of ASCII decimal digits. *)
Fixpoint digits_value (s : string) (acc : Z) : option Z :=
  match s with
  | EmptyString => Some acc
  | String c s' =>
      match Ascii.is_nat c with
      | Some d => digits_value s' (10 * acc + Z.of_nat d)
      | None => None
      end
  end.

Definition int_of_digits (s : string) : option Z :=
  match s with
  | EmptyString => None
  | _ => digits_value s 0
  end.

Definition float_of_half (s : string) : option float :=
  if String.eqb s "0.5" then Some 0.5%float else None.

(** A fully configured environment. *)
Definition full_env : environ :=
  list_to_map
    [ ("AZURE_API_BASE", "https://example.openai.azure.com/");
      ("AZURE_API_VERSION", "2023-05-15");
      ("AZURE_API_KEY", "k");
      ("AZURE_EMBEDDING_MODEL", "text-embedding-ada-002");
      ("AZURE_TEXT_MODEL", "gpt-35-turbo");
      ("AZURE_EMBED_MODEL_DEPLOYMENT_NAME", "embed");
      ("AZURE_TEXT_MODEL_DEPLOYMENT_NAME", "text");
      ("OPENAI_MAX_TOKENS", "256");
      ("CHUNK_SIZE", "4096");
      ("CHUNK_OVERLAP", "0.5");
      ("REDIS_HOST", "localhost");
      ("REDIS_PORT", "6379") ].

(** The same environment without [CHUNK_SIZE]. *)
Definition env_without_chunk_size : environ := delete "CHUNK_SIZE" full_env.

(** No [.env] file, one document, and every library call succeeds. *)
Definition quiet_world : World :=
  {| dotenv_values := ∅;
     documents_found := ["doc-0"];
     int_of_str := int_of_digits;
     float_of_str := float_of_half;
     raises := fun _ _ => None;
     exit_suppresses := fun _ _ => false |}.

(** The state in which the evaluation loop starts: every earlier cell
    has run. *)
Definition before_loop (W : World) (env : environ) : state :=
  (before_evaluation W (State env [])).1.

Definition is_enter (c : call) : bool :=
  match c with RecorderEnter => true | _ => false end.

(** As [quiet_world], except that during recording the provider fails
    on the second evaluation question; the recorder re-raises. *)
Definition failing_world : World :=
  {| dotenv_values := ∅;
     documents_found := ["doc-0"];
     int_of_str := int_of_digits;
     float_of_str := float_of_half;
     raises := fun h c =>
       match c with
       | Query q =>
           if existsb is_enter h
              && String.eqb q "What are the main differences between the three engine types available for the Chevy Colorado?"
           then Some (Other "RateLimitError")
           else None
       | _ => None
       end;
     exit_suppresses := fun _ _ => false |}.

End Worlds.

(** ** Vocabulary for further properties *)

Module Checks.
Import Py Lib Run Notebook Spec.

(** The variables [format_redis_conn_from_env] reads. *)
Definition redis_keys : list string :=
  ["REDIS_PASSWORD"; "REDIS_USERNAME"; "REDIS_HOST"; "REDIS_PORT"].

(** The three numbers cell [147e7678] parses, when all of them are set
    and accepted by [int]/[float]: [(num_output, max_input_size,
    max_chunk_overlap)]. *)
Definition numeric_settings (W : World) (env : environ) : option (Z * Z * float) :=
  match env !! "OPENAI_MAX_TOKENS" ≫= int_of_str W,
        env !! "CHUNK_SIZE" ≫= int_of_str W,
        env !! "CHUNK_OVERLAP" ≫= float_of_str W with
  | Some num_output, Some max_input_size, Some max_chunk_overlap =>
      Some (num_output, max_input_size, max_chunk_overlap)
  | _, _, _ => None
  end.

(** The calls the evaluation loop can make. *)
Definition loop_call (c : call) : Prop :=
  match c with
  | RecorderEnter | RecorderExit _ | Query _ => True
  | _ => False
  end.

(** A world whose recorder never raises from [__enter__] or [__exit__]
    and suppresses every exception of the body. *)
Definition recorder_suppresses (W : World) : Prop :=
  (∀ h, raises W h RecorderEnter = None)
  ∧ (∀ h exc, raises W h (RecorderExit exc) = None)
  ∧ (∀ h e, exit_suppresses W h e = true).

(** Scanning a trace: no question is put to the query engine before
    [from_documents] has been called. [indexed] says whether it has been
    called already. *)
Fixpoint queries_follow_indexing (indexed : bool) (cs : list call) : bool :=
  match cs with
  | [] => true
  | FromDocuments :: cs => queries_follow_indexing true cs
  | Query _ :: cs => indexed && queries_follow_indexing indexed cs
  | _ :: cs => queries_follow_indexing indexed cs
  end.

(** Scanning the calls of the evaluation loop: blocks of [__enter__],
    one query, [__exit__], possibly ended by an [__enter__] alone. *)
Fixpoint recording_blocks (cs : list call) : bool :=
  match cs with
  | [] => true
  | [RecorderEnter] => true
  | RecorderEnter :: Query _ :: RecorderExit _ :: cs => recording_blocks cs
  | _ => false
  end.

Definition is_from_documents (c : call) : bool :=
  match c with FromDocuments => true | _ => false end.

(** What every [RedisVectorStore] construction of a run looks like, for
    the environment [env] in force after [load_dotenv]. *)
Definition store_call_ok (env : environ) (c : call) : Prop :=
  match c with
  | RedisVectorStore index_name index_prefix redis_url overwrite =>
      index_name = "chevy_docs" ∧ index_prefix = "blog" ∧ overwrite = true
      ∧ redis_url = Redis.format_redis_conn_from_env env false
  | _ => True
  end.

(** As [Worlds.quiet_world] but every query made during a recording
    fails and the recorder suppresses the failure. *)
Definition suppressing_world : World :=
  {| dotenv_values := ∅;
     documents_found := ["doc-0"];
     int_of_str := Worlds.int_of_digits;
     float_of_str := Worlds.float_of_half;
     raises := fun h c =>
       match c with
       | Query _ =>
           if existsb Worlds.is_enter h then Some (Other "RateLimitError") else None
       | _ => None
       end;
     exit_suppresses := fun _ _ => true |}.

(** An environment that sets the three numeric variables and nothing
    else. *)
Definition numeric_only_env : environ :=
  list_to_map
    [ ("OPENAI_MAX_TOKENS", "256"); ("CHUNK_SIZE", "4096"); ("CHUNK_OVERLAP", "0.5") ].

(** As [Worlds.quiet_world] but the reader returns no document. *)
Definition empty_docs_world : World :=
  {| dotenv_values := ∅;
     documents_found := [];
     int_of_str := Worlds.int_of_digits;
     float_of_str := Worlds.float_of_half;
     raises := fun _ _ => None;
     exit_suppresses := fun _ _ => false |}.

End Checks.

(** ** Properties of the connection string *)

Section ConnectionString.
Import Py Redis.

(** stdpp keeps [String.append] from simplifying, so its equations are
    stated once and used by rewriting. *)
Lemma append_cons (x : Ascii.ascii) (a b : string) :
  String x a +:+ b = String x (a +:+ b).
Proof. reflexivity. Qed.

Lemma append_empty_l (a : string) : "" +:+ a = a.
Proof. reflexivity. Qed.

Lemma append_assoc (a b c : string) : (a +:+ b) +:+ c = a +:+ (b +:+ c).
Proof.
  induction a as [|x a IH]; [reflexivity |].
  rewrite !append_cons. f_equal. exact IH.
Qed.

Lemma getenv_None env key : getenv env key None = env !! key.
Proof. unfold getenv. now destruct (env !! key). Qed.

Lemma getenv_default env key d :
  getenv env key (Some d) = Some (default d (env !! key)).
Proof. unfold getenv. now destruct (env !! key). Qed.

(** The function spells the record whose credentials are present exactly
    when [REDIS_PASSWORD] is set. *)
Lemma format_redis_conn_render env using_ssl :
  format_redis_conn_from_env env using_ssl =
  render {| use_tls := using_ssl;
            credentials :=
              match env !! "REDIS_PASSWORD" with
              | Some p => Some (default "" (env !! "REDIS_USERNAME"), p)
              | None => None
              end;
            host := format_value (env !! "REDIS_HOST");
            port := format_value (env !! "REDIS_PORT") |}.
Proof.
  unfold format_redis_conn_from_env, render; simpl.
  rewrite !getenv_None, getenv_default.
  destruct (env !! "REDIS_PASSWORD") as [p|] eqn:Hp.
  - rewrite bool_decide_eq_true_2 by discriminate.
    destruct using_ssl; simpl;
      rewrite ?append_assoc, ?append_cons, ?append_empty_l; reflexivity.
  - rewrite bool_decide_eq_false_2 by (intros H; now apply H).
    destruct using_ssl; simpl;
      rewrite ?append_assoc, ?append_cons, ?append_empty_l; reflexivity.
Qed.

End ConnectionString.

(** ** Reasoning about runs *)

Section RunRules.
Import Py Lib Run.
Context (W : World).

Lemma wp_run {A} (m : M A) s Q : wp m s Q -> ∀ s' r, m s = (s', r) -> Q s' r.
Proof. unfold wp. intros H s' r Heq. now rewrite Heq in H. Qed.

Lemma wp_ret {A} (a : A) s Q : Q s (Returned a) -> wp (mret a) s Q.
Proof. exact id. Qed.

Lemma wp_throw {A} (e : exn) s (Q : state -> outcome A -> Prop) :
  Q s (Raised e) -> wp (mthrow e) s Q.
Proof. exact id. Qed.

Lemma wp_bind {A B} (m : M A) (k : A -> M B) s Q :
  wp m s (fun s' r =>
            match r with
            | Returned a => wp (k a) s' Q
            | Raised e => Q s' (Raised e)
            end) ->
  wp (m ≫= k) s Q.
Proof.
  unfold wp, mbind, M_bind. destruct (m s) as [s' [a|e]]; simpl; auto.
Qed.

Lemma wp_lib c s Q :
  (∀ r, (match raises W (calls s) c with
         | Some e => r = Raised e
         | None => r = Returned tt
         end) ->
        Q (State (os_environ s) (calls s ++ [c])) r) ->
  wp (lib W c) s Q.
Proof.
  unfold wp, lib. intros H. destruct (raises W (calls s) c); simpl; now apply H.
Qed.

Lemma wp_get_environ s Q : Q s (Returned (os_environ s)) -> wp get_environ s Q.
Proof. exact id. Qed.

Lemma wp_set_environ env s Q :
  Q (State env (calls s)) (Returned tt) -> wp (set_environ env) s Q.
Proof. exact id. Qed.

Lemma wp_get_calls s Q : Q s (Returned (calls s)) -> wp get_calls s Q.
Proof. exact id. Qed.

Lemma wp_try {A} (m : M A) s Q :
  wp m s (fun s' r => Q s' (Returned r)) -> wp (try m) s Q.
Proof. unfold wp, try. destruct (m s) as [s' r]. exact id. Qed.

Lemma wp_os_getenv key d s Q :
  Q s (Returned (getenv (os_environ s) key d)) -> wp (os_getenv key d) s Q.
Proof. exact id. Qed.

Lemma wp_item0 {A} (xs : list A) s Q :
  (∀ r, r = (match xs with
             | x :: _ => Returned x
             | [] => Raised IndexError
             end) -> Q s r) ->
  wp (item0 xs) s Q.
Proof. unfold wp, item0. intros H. destruct xs; simpl; now apply H. Qed.

(** Sequencing, as equations on runs. *)
Lemma bind_returned {A B} (m : M A) (k : A -> M B) s s' a :
  m s = (s', Returned a) -> (m ≫= k) s = k a s'.
Proof. unfold mbind, M_bind. now intros ->. Qed.

Lemma bind_raised {A B} (m : M A) (k : A -> M B) s s' e :
  m s = (s', Raised e) -> (m ≫= k) s = (s', Raised e).
Proof. unfold mbind, M_bind. now intros ->. Qed.

Lemma queries_of_app cs1 cs2 :
  queries_of (cs1 ++ cs2) = queries_of cs1 ++ queries_of cs2.
Proof.
  induction cs1 as [|c cs1 IH]; [reflexivity |].
  destruct c; simpl; rewrite IH; reflexivity.
Qed.

End RunRules.

Ltac wp_step :=
  lazymatch goal with
  | |- Run.wp (mbind _ _) _ _ => apply wp_bind
  | |- Run.wp (mret _) _ _ => apply wp_ret
  | |- Run.wp (mthrow _) _ _ => apply wp_throw
  | |- Run.wp (Run.lib _ _) _ _ => apply wp_lib; intros ? ?
  | |- Run.wp Run.get_environ _ _ => apply wp_get_environ
  | |- Run.wp (Run.set_environ _) _ _ => apply wp_set_environ
  | |- Run.wp (Run.os_getenv _ _) _ _ => apply wp_os_getenv
  | |- Run.wp (Run.item0 _) _ _ => apply wp_item0; intros ? ?
  | |- Run.wp Run.get_calls _ _ => apply wp_get_calls
  | |- Run.wp (Run.try _) _ _ => apply wp_try
  | |- Run.wp (match ?r with Py.Returned _ => _ | Py.Raised _ => _ end) _ _ =>
      destruct r
  | |- Run.wp (if ?b then _ else _) _ _ => destruct b eqn:?
  end.

Ltac wp_case :=
  lazymatch goal with
  | |- match ?r with Py.Returned _ => _ | Py.Raised _ => _ end =>
      is_var r; destruct r as [?|?]
  end.

Ltac wp_exec :=
  repeat first
    [ wp_step; cbn [Run.os_environ Run.calls] in *
    | wp_case
    | progress cbv beta iota ].

(** ** Configuration cells *)

Section Configuration.
Import Py Lib Run Notebook Spec.
Context (W : World).

(** The cells before the prompt-helper cell only build clients and read
    the documents; when they all return, [os.environ] holds the [.env]
    values over the process environment and the documents are loaded. *)
Lemma setup_spec s :
  wp (setup W) s (fun s' r =>
    (∃ cs, calls s' = calls s ++ cs ∧ Forall before_indexing cs) ∧
    match r with
    | Returned _ =>
        os_environ s' = dotenv_values W ∪ os_environ s
        ∧ LoadData "./docs" ∈ calls s'
    | Raised e => libraries_succeed W -> documents_found W ≠ [] -> False
    end).
Proof.
  unfold setup, cell_949e6cf1, cell_47264e32, cell_b917ab1f, cell_32a77108,
    cell_c67d58db, cell_68cbd239.
  wp_exec.
  all: split;
    [ eexists; split;
      [ rewrite <- ?app_assoc; reflexivity
      | repeat (apply Forall_app; split); repeat constructor;
        (left; reflexivity) || (right; reflexivity) ]
    | ].
  all: try (intros Hs Hd;
            repeat match goal with
                   | H : match raises W ?h ?c with _ => _ end |- _ =>
                       rewrite (Hs h c) in H
                   end;
            destruct (documents_found W); congruence).
  split; [reflexivity |].
  rewrite !elem_of_app, !list_elem_of_singleton. auto.
Qed.

(** The same cells make only calls of their own, end with [load_data]
    when they return, and can only raise if one of their own library
    calls raises or no document is found. *)
Lemma setup_calls s :
  wp (setup W) s (fun s' r =>
    (∃ cs, calls s' = calls s ++ cs ∧ Forall setup_call cs) ∧
    match r with
    | Returned _ => last (calls s') = Some (LoadData "./docs")
    | Raised e => earlier_calls_succeed W -> documents_found W ≠ [] -> False
    end).
Proof.
  unfold setup, cell_949e6cf1, cell_47264e32, cell_b917ab1f, cell_32a77108,
    cell_c67d58db, cell_68cbd239.
  wp_exec.
  all: split;
    [ eexists; split;
      [ rewrite <- ?app_assoc; reflexivity
      | repeat (apply Forall_app; split); repeat constructor ]
    | ].
  all: try (intros Hs Hd;
            repeat match goal with
                   | H : match raises W ?h ?c with _ => _ end |- _ =>
                       rewrite (Hs h c I) in H
                   end;
            destruct (documents_found W); congruence).
  apply last_snoc.
Qed.

Lemma setup_call_before_indexing c : setup_call c -> before_indexing c.
Proof. destruct c; simpl; intros []; (now left) || (now right). Qed.

(** With one of the three numeric variables unset, the prompt-helper
    cell raises from [int] or [float] before it calls the library. *)
Lemma cell_147e7678_missing s key :
  key ∈ numeric_keys ->
  os_environ s !! key = None ->
  ∃ e, cell_147e7678 W s = (s, Raised e) ∧ (e = TypeError ∨ e = ValueError).
Proof.
  intros Hk Hmiss.
  unfold cell_147e7678, os_getenv, get_environ, int, float_.
  cbv [mbind M_bind mret M_ret mthrow M_throw].
  rewrite !getenv_None.
  unfold numeric_keys in Hk.
  repeat (apply elem_of_cons in Hk as [-> | Hk]);
    [ .. | now apply elem_of_nil in Hk ];
    rewrite ?Hmiss; repeat case_match;
    rewrite ?getenv_None in *; simplify_eq; eauto.
Qed.

End Configuration.

(** ** The evaluation loop *)

Section EvaluationLoop.
Import Py Lib Run Notebook Spec.
Context (W : World).

(** One pass of the loop body puts its question to the query engine at
    most once, and exactly once when it returns. *)
Lemma record_query_spec q s :
  wp (record_query W q) s (fun s' r =>
    ∃ cs, calls s' = calls s ++ cs ∧
          match r with
          | Returned _ => queries_of cs = [q]
          | Raised _ => queries_of cs = [q] ∨ queries_of cs = []
          end).
Proof.
  unfold record_query, with_recorder.
  wp_exec.
  all: eexists; split;
    [ rewrite <- ?app_assoc; reflexivity
    | simpl; repeat case_match; auto ].
Qed.

Lemma loop_returned qs : ∀ s s',
  cell_6572b079 W qs s = (s', Returned tt) ->
  ∃ cs, calls s' = calls s ++ cs ∧ queries_of cs = qs.
Proof.
  unfold cell_6572b079.
  induction qs as [|q qs IH]; intros s s' Hrun; simpl in Hrun.
  - inversion Hrun; subst. exists []. now rewrite app_nil_r.
  - destruct (record_query W q s) as [s1 [u|e]] eqn:Hq.
    + rewrite (bind_returned _ _ _ _ _ Hq) in Hrun.
      destruct (wp_run _ _ _ (record_query_spec q s) _ _ Hq) as (cs1 & Hc1 & Hq1).
      destruct (IH _ _ Hrun) as (cs2 & Hc2 & Hq2).
      exists (cs1 ++ cs2). split.
      * now rewrite Hc2, Hc1, app_assoc.
      * now rewrite queries_of_app, Hq1, Hq2.
    + rewrite (bind_raised _ _ _ _ _ Hq) in Hrun. discriminate.
Qed.

Lemma loop_app_raised pre q post : ∀ s s1 s2 e,
  cell_6572b079 W pre s = (s1, Returned tt) ->
  record_query W q s1 = (s2, Raised e) ->
  cell_6572b079 W (pre ++ q :: post) s = (s2, Raised e).
Proof.
  unfold cell_6572b079.
  induction pre as [|p pre IH]; intros s s1 s2 e Hpre Hq; simpl in *.
  - inversion Hpre; subst. now apply bind_raised.
  - destruct (record_query W p s) as [s0 [u|e0]] eqn:Hp.
    + rewrite (bind_returned _ _ _ _ _ Hp) in Hpre.
      rewrite (bind_returned _ _ _ _ _ Hp). eauto.
    + rewrite (bind_raised _ _ _ _ _ Hp) in Hpre. discriminate.
Qed.

End EvaluationLoop.

(** ** The claims *)

Section Claims.
Import Py Lib Run Redis Notebook Spec Worlds.

(** Runs of the model on concrete inputs. *)
Example conn_plain :
  format_redis_conn_from_env full_env false = "redis://localhost:6379".
Proof. vm_compute. reflexivity. Qed.

Example conn_password_only :
  format_redis_conn_from_env (<["REDIS_PASSWORD" := "s3cret"]> full_env) true
  = "rediss://:s3cret@localhost:6379".
Proof. vm_compute. reflexivity. Qed.

Example conn_username_only :
  format_redis_conn_from_env (<["REDIS_USERNAME" := "default"]> full_env) false
  = "redis://localhost:6379".
Proof. vm_compute. reflexivity. Qed.

Example conn_unset_host : format_redis_conn_from_env ∅ true = "rediss://None:None".
Proof. vm_compute. reflexivity. Qed.

Example run_configured : (run_all quiet_world full_env).2 = Returned tt.
Proof. vm_compute. reflexivity. Qed.

Example run_without_chunk_size :
  (run_all quiet_world env_without_chunk_size).2 = Raised TypeError
  ∧ queries_of (calls (run_all quiet_world env_without_chunk_size).1) = [].
Proof. split; vm_compute; reflexivity. Qed.

Example run_provider_failure :
  (run_all failing_world full_env).2 = Raised (Other "RateLimitError").
Proof. vm_compute. reflexivity. Qed.

Lemma prefix_empty (s : string) : String.prefix "" s = true.
Proof. now destruct s. Qed.

(** C1. For every environment and every value of the TLS option, the
    connection string has the form [scheme://[username:password@]host:port]
    with the host and port read from the environment, and it starts with
    [rediss://] exactly when the option is on and with [redis://]
    exactly when it is off. *)
Theorem connection_string_form (env : environ) (using_ssl : bool) :
  (∃ creds,
      format_redis_conn_from_env env using_ssl =
      render {| use_tls := using_ssl;
                credentials := creds;
                host := format_value (env !! "REDIS_HOST");
                port := format_value (env !! "REDIS_PORT") |})
  ∧ startswith (format_redis_conn_from_env env using_ssl) "rediss://" = using_ssl
  ∧ startswith (format_redis_conn_from_env env using_ssl) "redis://" = negb using_ssl.
Proof.
  split; [eexists; apply format_redis_conn_render |].
  rewrite format_redis_conn_render. unfold startswith, render.
  destruct using_ssl; cbn [use_tls scheme];
    rewrite ?append_cons, ?append_empty_l; simpl;
    rewrite ?prefix_empty; split; reflexivity.
Qed.

(** C10. The connection string carries a credentials segment exactly
    when [REDIS_PASSWORD] is set: with the password unset there is none,
    whatever [REDIS_USERNAME] is; with the password set the segment is
    [username:password@], the username being empty when
    [REDIS_USERNAME] is unset. *)
Theorem connection_string_credentials (env : environ) (using_ssl : bool) :
  let url := format_redis_conn_from_env env using_ssl in
  let spelled creds :=
    render {| use_tls := using_ssl;
              credentials := creds;
              host := format_value (env !! "REDIS_HOST");
              port := format_value (env !! "REDIS_PORT") |} in
  (∃ creds, url = spelled creds
            ∧ (is_Some creds ↔ is_Some (env !! "REDIS_PASSWORD")))
  ∧ (env !! "REDIS_PASSWORD" = None ->
     ∀ u, format_redis_conn_from_env (<["REDIS_USERNAME" := u]> env) using_ssl
          = spelled None)
  ∧ (∀ p, env !! "REDIS_PASSWORD" = Some p ->
          env !! "REDIS_USERNAME" = None ->
          url = spelled (Some ("", p)))
  ∧ (∀ u p, env !! "REDIS_PASSWORD" = Some p ->
            env !! "REDIS_USERNAME" = Some u ->
            url = spelled (Some (u, p))).
Proof.
  intros url spelled. subst url spelled. cbv beta.
  repeat split.
  - eexists. split; [apply format_redis_conn_render |].
    destruct (env !! "REDIS_PASSWORD"); split; intros [x Hx];
      first [discriminate | eauto].
  - intros Hp u. rewrite format_redis_conn_render.
    rewrite (lookup_insert_ne env "REDIS_USERNAME" "REDIS_PASSWORD"),
      (lookup_insert_ne env "REDIS_USERNAME" "REDIS_HOST"),
      (lookup_insert_ne env "REDIS_USERNAME" "REDIS_PORT") by discriminate.
    now rewrite Hp.
  - intros p Hp Hu. rewrite format_redis_conn_render. now rewrite Hp, Hu.
  - intros u p Hp Hu. rewrite format_redis_conn_render. now rewrite Hp, Hu.
Qed.

(** C2, as the code has it. When [OPENAI_MAX_TOKENS], [CHUNK_SIZE] or
    [CHUNK_OVERLAP] is set neither in the process environment nor in
    [.env], the run ends in an exception no later than the prompt-helper
    cell: the only library calls made are those of the cells before it
    (installation, imports, [load_dotenv], the client constructors and
    the directory reader), so [PromptHelper] is never called and no
    vector-store, indexing or query call is made. If moreover the library
    calls of those earlier cells do not raise and a document is found,
    the run stops in the prompt-helper cell itself, right after
    [load_data], and the exception is the builtin [TypeError] or
    [ValueError] of [int]/[float], not [ConfigurationError]. *)
Theorem missing_numeric_key_stops_run (W : World) (env : environ) :
  (∃ key, key ∈ numeric_keys ∧ missing W env key) ->
  ∃ s' e,
    run_all W env = (s', Raised e)
    ∧ Forall setup_call (calls s')
    ∧ Forall before_indexing (calls s')
    ∧ (earlier_calls_succeed W -> documents_found W ≠ [] ->
       (e = TypeError ∨ e = ValueError)
       ∧ e ≠ ConfigurationError
       ∧ last (calls s') = Some (LoadData "./docs")
       ∧ LoadData "./docs" ∈ calls s').
Proof.
  intros (key & Hkey & Hmiss). unfold missing in Hmiss.
  unfold run_all, notebook, before_evaluation.
  destruct (setup W (State env [])) as [s1 [az|e]] eqn:Hsetup;
    destruct (wp_run _ _ _ (setup_calls W _) _ _ Hsetup)
      as [(cs & Hcs & Hall) Hpost]; simpl in Hcs;
    destruct (wp_run _ _ _ (setup_spec W _) _ _ Hsetup) as [_ Hspec].
  - destruct Hspec as [Henv Hload]. simpl in Henv.
    rewrite <- Henv in Hmiss.
    destruct (cell_147e7678_missing W s1 key Hkey Hmiss) as (e & Hcell & He).
    exists s1, e. split; [| split; [| split]].
    + apply bind_raised. rewrite (bind_returned _ _ _ _ _ Hsetup).
      now apply bind_raised.
    + now rewrite Hcs.
    + rewrite Hcs. eapply Forall_impl; [exact Hall |].
      apply setup_call_before_indexing.
    + intros _ _. repeat split; auto.
      destruct He as [-> | ->]; discriminate.
  - exists s1, e. split; [| split; [| split]].
    + apply bind_raised. now apply bind_raised.
    + now rewrite Hcs.
    + rewrite Hcs. eapply Forall_impl; [exact Hall |].
      apply setup_call_before_indexing.
    + intros Hs Hd. destruct (Hpost Hs Hd).
Qed.

(** The theorem above at a fully configured run from which [CHUNK_SIZE]
    alone is removed, in a world where every library call succeeds. *)
Lemma missing_numeric_key_stops_run_witness :
  ∃ s' e,
    run_all quiet_world env_without_chunk_size = (s', Raised e)
    ∧ Forall setup_call (calls s')
    ∧ Forall before_indexing (calls s')
    ∧ (e = TypeError ∨ e = ValueError)
    ∧ e ≠ ConfigurationError
    ∧ last (calls s') = Some (LoadData "./docs")
    ∧ LoadData "./docs" ∈ calls s'.
Proof.
  destruct (missing_numeric_key_stops_run quiet_world env_without_chunk_size)
    as (s' & e & Hrun & Hsetup & Hcalls & Hexn).
  - exists "CHUNK_SIZE". split.
    + unfold numeric_keys. apply list_elem_of_further, list_elem_of_here.
    + vm_compute. reflexivity.
  - exists s', e. split; [exact Hrun | split; [exact Hsetup | split; [exact Hcalls |]]].
    apply Hexn.
    + intros h c _. reflexivity.
    + discriminate.
Defined.

(** C2 as stated fails: with [CHUNK_SIZE] missing the run ends in
    [TypeError], not [ConfigurationError], and only after the documents
    have been read. *)
Lemma fails_fast_refuted : ¬ fails_fast quiet_world env_without_chunk_size.
Proof.
  intros H. destruct H as (s' & Hrun & _).
  - exists "CHUNK_SIZE". split.
    + unfold numeric_keys. apply list_elem_of_further, list_elem_of_here.
    + vm_compute. reflexivity.
  - apply (f_equal snd) in Hrun. vm_compute in Hrun. discriminate Hrun.
Qed.

(** C8, as the code has it. When the loop body for one question ends in
    an exception (one the recorder does not suppress), the loop ends in
    that exception: the questions before it and possibly that one have
    been put to the query engine, and no later question is. *)
Theorem evaluation_loop_stops_at_error (W : World)
    (pre : list string) (q : string) (post : list string)
    (s s1 s2 : state) (e : exn) :
  cell_6572b079 W pre s = (s1, Returned tt) ->
  record_query W q s1 = (s2, Raised e) ->
  cell_6572b079 W (pre ++ q :: post) s = (s2, Raised e)
  ∧ (queries_of (new_calls s s2) = pre ++ [q]
     ∨ queries_of (new_calls s s2) = pre).
Proof.
  intros Hpre Hq. split; [eapply loop_app_raised; eauto |].
  destruct (loop_returned W _ _ _ Hpre) as (cs1 & Hc1 & Hq1).
  destruct (wp_run _ _ _ (record_query_spec W q s1) _ _ Hq) as (cs2 & Hc2 & Hq2).
  unfold new_calls. rewrite Hc2, Hc1, <- app_assoc, drop_app_length.
  rewrite queries_of_app, Hq1.
  destruct Hq2 as [-> | ->]; [left | right]; [reflexivity | apply app_nil_r].
Qed.

(** The theorem above at the notebook's own questions, in a world where
    the provider fails on the second of them. *)
Lemma evaluation_loop_stops_at_error_witness :
  ∃ s2,
    cell_6572b079 failing_world eval_questions (before_loop failing_world full_env)
    = (s2, Raised (Other "RateLimitError"))
    ∧ (queries_of (new_calls (before_loop failing_world full_env) s2)
       = ["What types of variants are available for the Chevrolet Colorado?"]
           ++ ["What are the main differences between the three engine types available for the Chevy Colorado?"]
       ∨ queries_of (new_calls (before_loop failing_world full_env) s2)
         = ["What types of variants are available for the Chevrolet Colorado?"]).
Proof.
  set (s := before_loop failing_world full_env).
  set (q1 := "What types of variants are available for the Chevrolet Colorado?").
  set (q2 := "What are the main differences between the three engine types available for the Chevy Colorado?").
  set (q3 := "What is the maximum towing capacity of the chevy colorado?").
  set (s1 := (cell_6572b079 failing_world [q1] s).1).
  exists (record_query failing_world q2 s1).1.
  apply (evaluation_loop_stops_at_error failing_world [q1] q2 [q3] s s1).
  - vm_compute. reflexivity.
  - vm_compute. reflexivity.
Defined.

(** C8 as stated fails: every earlier cell returns, the provider fails
    on the second evaluation question, and the third question is never
    put to the query engine by the loop. *)
Lemma batch_continues_refuted :
  (before_evaluation failing_world (State full_env [])).2 = Returned tt
  ∧ ¬ batch_continues failing_world (before_loop failing_world full_env)
        eval_questions.
Proof.
  split; [vm_compute; reflexivity |].
  intros H.
  pose proof (H "What is the maximum towing capacity of the chevy colorado?") as Hin.
  assert (Hq : queries_of
                 (new_calls (before_loop failing_world full_env)
                    (cell_6572b079 failing_world eval_questions
                       (before_loop failing_world full_env)).1)
               = [ "What types of variants are available for the Chevrolet Colorado?";
                   "What are the main differences between the three engine types available for the Chevy Colorado?" ])
    by (vm_compute; reflexivity).
  rewrite Hq in Hin.
  assert (Hmem : "What is the maximum towing capacity of the chevy colorado?"
                 ∈ eval_questions)
    by (unfold eval_questions; do 2 apply list_elem_of_further; apply list_elem_of_here).
  specialize (Hin Hmem).
  repeat (apply elem_of_cons in Hin as [Hin | Hin]; [discriminate Hin |]).
  now apply elem_of_nil in Hin.
Qed.

End Claims.

(** ** Further properties of the connection string *)

Section ConnectionStringMore.
Import Py Lib Run Redis Notebook Spec Worlds Checks.

(** X1. The connection string depends on no variable other than
    [REDIS_PASSWORD], [REDIS_USERNAME], [REDIS_HOST] and [REDIS_PORT]:
    setting or unsetting any other variable leaves it unchanged. *)
Theorem connection_string_frame (env : environ) (using_ssl : bool)
    (key value : string) :
  key ∉ redis_keys ->
  format_redis_conn_from_env (<[key := value]> env) using_ssl
  = format_redis_conn_from_env env using_ssl
  ∧ format_redis_conn_from_env (delete key env) using_ssl
    = format_redis_conn_from_env env using_ssl.
Proof.
  intros Hkey. unfold redis_keys in Hkey.
  rewrite !not_elem_of_cons in Hkey.
  destruct Hkey as (Hp & Hu & Hh & Hport & _).
  unfold format_redis_conn_from_env, getenv.
  rewrite !lookup_insert_ne, !lookup_delete_ne by congruence.
  split; reflexivity.
Qed.

Lemma connection_string_frame_witness :
  format_redis_conn_from_env (<["AZURE_API_KEY" := "other"]> full_env) true
  = format_redis_conn_from_env full_env true
  ∧ format_redis_conn_from_env (delete "AZURE_API_KEY" full_env) true
    = format_redis_conn_from_env full_env true.
Proof.
  apply (connection_string_frame full_env true "AZURE_API_KEY" "other").
  unfold redis_keys. rewrite !not_elem_of_cons.
  repeat split; try discriminate. apply not_elem_of_nil.
Defined.

(** X2. The TLS option changes the scheme and nothing else: both
    variants share the text after [redis://] and [rediss://]. *)
Theorem connection_string_scheme_only (env : environ) :
  ∃ rest,
    format_redis_conn_from_env env false = "redis://" +:+ rest
    ∧ format_redis_conn_from_env env true = "rediss://" +:+ rest.
Proof.
  unfold format_redis_conn_from_env.
  destruct (bool_decide _); eexists; split;
    rewrite ?append_assoc; reflexivity.
Qed.

(** X3. Credentials are inserted verbatim, without escaping: a password
    ending in [@x] with host [h] gives the same connection string as the
    password without that ending with host [x@h]. *)
Theorem connection_string_not_escaped (env : environ) (using_ssl : bool)
    (p x h : string) :
  format_redis_conn_from_env
    (<["REDIS_PASSWORD" := p +:+ "@" +:+ x]> (<["REDIS_HOST" := h]> env)) using_ssl
  = format_redis_conn_from_env
      (<["REDIS_PASSWORD" := p]> (<["REDIS_HOST" := x +:+ "@" +:+ h]> env)) using_ssl.
Proof.
  rewrite !format_redis_conn_render. unfold render. cbn [use_tls credentials host port].
  rewrite !lookup_insert_eq.
  rewrite !(lookup_insert_ne _ "REDIS_PASSWORD" "REDIS_HOST") by discriminate.
  rewrite !lookup_insert_eq.
  rewrite !(lookup_insert_ne _ "REDIS_PASSWORD" "REDIS_USERNAME") by discriminate.
  rewrite !(lookup_insert_ne _ "REDIS_PASSWORD" "REDIS_PORT") by discriminate.
  rewrite !(lookup_insert_ne _ "REDIS_HOST" "REDIS_USERNAME") by discriminate.
  rewrite !(lookup_insert_ne _ "REDIS_HOST" "REDIS_PORT") by discriminate.
  unfold render_credentials, format_value at 1 3.
  rewrite ?append_assoc, ?append_cons, ?append_empty_l.
  reflexivity.
Qed.

(** X13. Unset variables do not make the function fail: with
    [REDIS_PASSWORD], [REDIS_HOST] and [REDIS_PORT] all unset the result
    is the scheme followed by the text [None:None], and with only the
    port unset the string ends in [:None]. *)
Theorem connection_string_unset_host_port (env : environ) (using_ssl : bool) :
  env !! "REDIS_PASSWORD" = None ->
  env !! "REDIS_PORT" = None ->
  (env !! "REDIS_HOST" = None ->
   format_redis_conn_from_env env using_ssl
   = if using_ssl then "rediss://None:None" else "redis://None:None")
  ∧ (∀ h, env !! "REDIS_HOST" = Some h ->
          format_redis_conn_from_env env using_ssl
          = (if using_ssl then "rediss://" else "redis://") +:+ h +:+ ":None").
Proof.
  intros Hp Hport.
  unfold format_redis_conn_from_env. rewrite !getenv_None, Hp, Hport.
  rewrite bool_decide_eq_false_2 by (intros H; now apply H).
  split.
  - intros ->. now destruct using_ssl.
  - intros h ->. reflexivity.
Qed.

Lemma connection_string_unset_host_port_witness :
  (numeric_only_env !! "REDIS_HOST" = None ->
   format_redis_conn_from_env numeric_only_env false
   = "redis://None:None")
  ∧ (∀ h, numeric_only_env !! "REDIS_HOST" = Some h ->
          format_redis_conn_from_env numeric_only_env false
          = "redis://" +:+ h +:+ ":None").
Proof.
  apply (connection_string_unset_host_port numeric_only_env false);
    vm_compute; reflexivity.
Defined.

End ConnectionStringMore.

(** ** Further properties of the configuration cells *)

Section ConfigurationMore.
Import Py Lib Run Redis Notebook Spec Worlds Checks.

(** X4. Cell [147e7678] reaches [PromptHelper] only when
    [OPENAI_MAX_TOKENS], [CHUNK_SIZE] and [CHUNK_OVERLAP] are all set and
    parse, and then passes them as (CHUNK_SIZE, OPENAI_MAX_TOKENS,
    CHUNK_OVERLAP); otherwise it raises [TypeError] or [ValueError],
    calls no library and leaves the state as it was. *)
Theorem prompt_helper_cell (W : World) (s : state) :
  match numeric_settings W (os_environ s) with
  | Some (num_output, max_input_size, max_chunk_overlap) =>
      cell_147e7678 W s
      = lib W (PromptHelper max_input_size num_output max_chunk_overlap) s
  | None =>
      ∃ e, cell_147e7678 W s = (s, Raised e) ∧ (e = TypeError ∨ e = ValueError)
  end.
Proof.
  unfold numeric_settings, cell_147e7678, os_getenv, get_environ, int, float_.
  cbv [mbind M_bind mret M_ret mthrow M_throw option_bind].
  rewrite !getenv_None.
  destruct (os_environ s !! "OPENAI_MAX_TOKENS") as [t|]; [| eauto].
  destruct (int_of_str W t); [| eauto].
  rewrite !getenv_None.
  destruct (os_environ s !! "CHUNK_SIZE") as [c|]; [| eauto].
  destruct (int_of_str W c); [| eauto].
  rewrite !getenv_None.
  destruct (os_environ s !! "CHUNK_OVERLAP") as [o|]; [| eauto].
  destruct (float_of_str W o); [| eauto].
  reflexivity.
Qed.

End ConfigurationMore.

(** ** Further properties of the evaluation loop *)

Section EvaluationLoopMore.
Import Py Lib Run Redis Notebook Spec Worlds Checks.
Context (W : World).

Lemma wp_conseq {A} (m : M A) s (Q Q' : state -> outcome A -> Prop) :
  wp m s Q -> (∀ s' r, Q s' r -> Q' s' r) -> wp m s Q'.
Proof. unfold wp. auto. Qed.

(** One pass of the loop body: either [__enter__] raised and nothing
    else was called, or the question was asked between [__enter__] and
    [__exit__]. The environment is not touched. *)
Lemma record_query_shape q s :
  wp (record_query W q) s (fun s' r =>
    os_environ s' = os_environ s
    ∧ ((calls s' = calls s ++ [RecorderEnter] ∧ ∃ e, r = Raised e)
       ∨ ∃ x, calls s' = calls s ++ [RecorderEnter; Query q; RecorderExit x])).
Proof.
  unfold record_query, with_recorder.
  wp_exec.
  all: split; [reflexivity |].
  all: rewrite <- ?app_assoc; simpl; eauto.
  all: repeat case_match; eauto.
Qed.

Lemma loop_shape qs : ∀ s,
  wp (cell_6572b079 W qs) s (fun s' r =>
    os_environ s' = os_environ s
    ∧ ∃ cs, calls s' = calls s ++ cs
            ∧ Forall loop_call cs
            ∧ recording_blocks cs = true
            ∧ queries_of cs `prefix_of` qs).
Proof.
  unfold cell_6572b079.
  induction qs as [|q qs IH]; intros s.
  - simpl. apply wp_ret. split; [reflexivity |].
    exists []. rewrite app_nil_r. repeat split; auto.
  - simpl. apply wp_bind.
    eapply wp_conseq; [apply record_query_shape |].
    intros s1 r [Henv Hshape]. destruct r as [u|e].
    + destruct Hshape as [(_ & e & He) | (x & Hc)]; [discriminate |].
      eapply wp_conseq; [apply IH |].
      intros s2 r2 (Henv2 & cs & Hc2 & Hall & Hrec & Hpre).
      split; [congruence |].
      exists ([RecorderEnter; Query q; RecorderExit x] ++ cs).
      split; [rewrite Hc2, Hc; now rewrite <- app_assoc |].
      split; [apply Forall_app; split; [repeat constructor | exact Hall] |].
      split; [exact Hrec |].
      simpl. now apply prefix_cons.
    + split; [exact Henv |].
      destruct Hshape as [(Hc & _) | (x & Hc)].
      * exists [RecorderEnter]. repeat split; auto.
        -- repeat constructor.
        -- apply prefix_nil.
      * exists [RecorderEnter; Query q; RecorderExit x]. repeat split; auto.
        -- repeat constructor.
        -- simpl. apply prefix_cons, prefix_nil.
Qed.

End EvaluationLoopMore.

Section EvaluationLoopTheorems.
Import Py Lib Run Redis Notebook Spec Worlds Checks.

Lemma new_calls_app s s' cs : calls s' = calls s ++ cs -> new_calls s s' = cs.
Proof. unfold new_calls. intros ->. apply drop_app_length. Qed.

(** X5. When the evaluation loop returns, every question of the batch
    has been put to the query engine exactly once, in the order of the
    batch, whether or not some of the queries failed on the way. *)
Theorem evaluation_loop_returned (W : World) (questions : list string)
    (s s' : state) :
  cell_6572b079 W questions s = (s', Returned tt) ->
  queries_of (new_calls s s') = questions.
Proof.
  intros Hrun.
  destruct (loop_returned W _ _ _ Hrun) as (cs & Hc & Hq).
  now rewrite (new_calls_app _ _ _ Hc).
Qed.

Lemma evaluation_loop_returned_witness :
  queries_of (new_calls (before_loop suppressing_world full_env)
                (cell_6572b079 suppressing_world eval_questions
                   (before_loop suppressing_world full_env)).1)
  = eval_questions.
Proof.
  apply (evaluation_loop_returned suppressing_world).
  vm_compute. reflexivity.
Defined.

(** X6. Whatever the libraries do, the questions the evaluation loop puts
    to the query engine are an initial segment of the batch: no question
    is asked twice, out of order, or from outside the batch. *)
Theorem evaluation_loop_asks_prefix (W : World) (questions : list string)
    (s : state) :
  queries_of (new_calls s (cell_6572b079 W questions s).1) `prefix_of` questions.
Proof.
  destruct (loop_shape W questions s) as (_ & cs & Hc & _ & _ & Hpre).
  now rewrite (new_calls_app _ _ _ Hc).
Qed.

(** X7. Every question of the evaluation loop is asked inside a
    recording: the loop's calls are blocks of [__enter__], one query and
    [__exit__], possibly ended by an [__enter__] that raised; and the loop
    leaves [os.environ] as it was. *)
Theorem evaluation_loop_records_every_query (W : World)
    (questions : list string) (s : state) :
  recording_blocks (new_calls s (cell_6572b079 W questions s).1) = true
  ∧ os_environ (cell_6572b079 W questions s).1 = os_environ s.
Proof.
  destruct (loop_shape W questions s) as (Henv & cs & Hc & _ & Hrec & _).
  now rewrite (new_calls_app _ _ _ Hc).
Qed.

(** With a recorder that suppresses, one pass of the loop body returns. *)
Lemma record_query_suppressed (W : World) q s :
  recorder_suppresses W -> ∃ s', record_query W q s = (s', Returned tt).
Proof.
  intros (Henter & Hexit & Hsup).
  assert (Hwp : wp (record_query W q) s (fun _ r => r = Returned tt)).
  { unfold record_query, with_recorder.
    wp_exec.
    all: repeat match goal with
                | H : match raises _ ?h RecorderEnter with _ => _ end |- _ =>
                    rewrite (Henter h) in H
                | H : match raises _ ?h (RecorderExit ?x) with _ => _ end |- _ =>
                    rewrite (Hexit h x) in H
                | H : exit_suppresses _ ?h ?e = false |- _ =>
                    rewrite (Hsup h e) in H
                end.
    all: first [reflexivity | congruence]. }
  unfold wp in Hwp.
  destruct (record_query W q s) as [s' r]. simpl in Hwp. subst r. eauto.
Qed.

(** X8. With a recorder whose [__enter__] and [__exit__] do not raise and
    whose [__exit__] suppresses the body's exception, the evaluation loop
    returns and asks every question of the batch, however many of the
    queries fail. *)
Theorem evaluation_loop_continues_when_suppressed (W : World)
    (questions : list string) (s : state) :
  recorder_suppresses W ->
  ∃ s', cell_6572b079 W questions s = (s', Returned tt)
        ∧ queries_of (new_calls s s') = questions.
Proof.
  intros Hsup.
  assert (Hret : ∀ qs s0, ∃ s', cell_6572b079 W qs s0 = (s', Returned tt)).
  { unfold cell_6572b079.
    induction qs as [|q qs IH]; intros s0; simpl; [eauto |].
    destruct (record_query_suppressed W q s0 Hsup) as (s1 & Hq).
    rewrite (bind_returned _ _ _ _ _ Hq). apply IH. }
  destruct (Hret questions s) as (s' & Hrun).
  exists s'. split; [exact Hrun |].
  destruct (loop_returned W _ _ _ Hrun) as (cs & Hc & Hq).
  now rewrite (new_calls_app _ _ _ Hc).
Qed.

Lemma evaluation_loop_continues_when_suppressed_witness :
  ∃ s', cell_6572b079 suppressing_world eval_questions
          (before_loop suppressing_world full_env) = (s', Returned tt)
        ∧ queries_of (new_calls (before_loop suppressing_world full_env) s')
          = eval_questions.
Proof.
  apply (evaluation_loop_continues_when_suppressed suppressing_world).
  repeat split; intros; reflexivity.
Defined.

End EvaluationLoopTheorems.

(** ** Properties of whole runs *)

Section RunTraces.
Import Py Lib Run Redis Notebook Spec Worlds Checks.
Context (W : World).

Lemma wp_int v s (Q : state -> outcome Z -> Prop) :
  (∀ r, Q s r) -> wp (int W v) s Q.
Proof.
  unfold wp, int. intros H.
  destruct v as [t|]; [destruct (int_of_str W t) |]; apply H.
Qed.

Lemma wp_float v s (Q : state -> outcome float -> Prop) :
  (∀ r, Q s r) -> wp (float_ W v) s Q.
Proof.
  unfold wp, float_. intros H.
  destruct v as [t|]; [destruct (float_of_str W t) |]; apply H.
Qed.

Lemma wp_eq {A} (m m' : M A) s Q : m s = m' s -> wp m' s Q -> wp m s Q.
Proof. unfold wp. now intros ->. Qed.

(** Once [from_documents] has been called, any further calls are fine. *)
Lemma queries_follow_indexing_true cs : queries_follow_indexing true cs = true.
Proof. induction cs as [|c cs IH]; [reflexivity |]. destruct c; simpl; auto. Qed.

Lemma queries_follow_indexing_app b cs1 cs2 :
  queries_follow_indexing b (cs1 ++ cs2)
  = queries_follow_indexing b cs1
    && queries_follow_indexing (b || existsb is_from_documents cs1) cs2.
Proof.
  revert b. induction cs1 as [|c cs1 IH]; intros b; simpl.
  - now rewrite orb_false_r.
  - destruct c; simpl; rewrite ?IH, ?orb_false_r, ?orb_true_r;
      try reflexivity.
    now rewrite andb_assoc.
Qed.

Lemma queries_follow_indexing_sound cs : ∀ b pre q post,
  queries_follow_indexing b cs = true ->
  cs = pre ++ Query q :: post ->
  b = true ∨ FromDocuments ∈ pre.
Proof.
  induction cs as [|c cs IH]; intros b pre q post Hscan Heq.
  - now destruct pre.
  - destruct pre as [|p pre]; simpl in Heq; injection Heq as -> ->.
    + simpl in Hscan. apply andb_true_iff in Hscan as [-> _]. now left.
    + assert (Hcase : p = FromDocuments ∨
                      b = true ∨ FromDocuments ∈ pre).
      { destruct p; simpl in Hscan;
          try (right; eapply IH; [exact Hscan | reflexivity]).
        - now left.
        - apply andb_true_iff in Hscan as [-> _]. right. now left. }
      destruct Hcase as [-> | [-> | Hin]].
      * right. apply list_elem_of_here.
      * now left.
      * right. now apply list_elem_of_further.
Qed.

End RunTraces.

Ltac wp_step_any :=
  first
    [ wp_step
    | lazymatch goal with
      | |- Run.wp (Run.int _ _) _ _ => apply wp_int; intros ?
      | |- Run.wp (Run.float_ _ _) _ _ => apply wp_float; intros ?
      end ].

(** Symbolic execution that forgets why each call returned or raised. *)
Ltac wp_trace :=
  repeat first
    [ wp_step_any; cbn [Run.os_environ Run.calls];
      repeat match goal with
             | H : match Lib.raises _ _ _ with _ => _ end |- _ => clear H
             | H : _ = match _ with [] => _ | _ :: _ => _ end |- _ => clear H
             end
    | wp_case
    | progress cbv beta iota ].

Section RunInvariants.
Import Py Lib Run Redis Notebook Spec Worlds Checks.
Context (W : World).

(** The cells before the evaluation loop. *)
Lemma before_evaluation_trace env :
  wp (before_evaluation W) (State env []) (fun s' r =>
    Forall (store_call_ok (dotenv_values W ∪ env)) (calls s')
    ∧ queries_follow_indexing false (calls s') = true
    ∧ match r with
      | Returned _ =>
          os_environ s' = dotenv_values W ∪ env
          ∧ existsb is_from_documents (calls s') = true
      | Raised _ => True
      end).
Proof.
  unfold before_evaluation, setup, ingest_and_query, define_feedback,
    cell_949e6cf1, cell_47264e32, cell_b917ab1f, cell_32a77108, cell_c67d58db,
    cell_68cbd239, cell_147e7678, cell_132b7b01, cell_fd85f591, cell_30b0d59f,
    cell_ba1558b3, cell_35369eda, cell_99212d33, cell_4a028452, cell_0a2b908c,
    cell_5bcb03f9, cell_09bf4523, cell_e20e85c4, cell_56e79c1d, cell_d8aa5973,
    cell_3ddb1ac9, cell_cb1de2fd, cell_341afb0f.
  wp_trace.
  all: cbn [app].
  all: try match goal with
           | |- context [match ?r with Returned _ => _ | Raised _ => _ end] =>
               destruct r
           end.
  all: split; [repeat constructor | split; [reflexivity | auto]].
Qed.

(** The report cells add only report calls. *)
Lemma report_trace s :
  wp (report W) s (fun s' r =>
    ∃ cs, calls s' = calls s ++ cs
          ∧ Forall (fun c => stage_of c = None) cs).
Proof.
  unfold report, cell_9c639f5c, cell_4032aa97, cell_6c6a18e4, cell_0edca9cb.
  wp_trace.
  all: eexists; split;
    [ rewrite <- ?app_assoc; reflexivity
    | repeat (apply Forall_app; split); repeat constructor ].
Qed.

Lemma store_call_ok_loop env cs :
  Forall loop_call cs -> Forall (store_call_ok env) cs.
Proof.
  intros H. eapply Forall_impl; [exact H |].
  intros c. destruct c; simpl; tauto.
Qed.

Lemma store_call_ok_report env cs :
  Forall (fun c => stage_of c = None) cs -> Forall (store_call_ok env) cs.
Proof.
  intros H. eapply Forall_impl; [exact H |].
  intros c. destruct c; simpl; auto; discriminate.
Qed.

(** What holds of the calls of every run. *)
Lemma run_trace env :
  Forall (store_call_ok (dotenv_values W ∪ env)) (calls (run_all W env).1)
  ∧ queries_follow_indexing false (calls (run_all W env).1) = true.
Proof.
  unfold run_all.
  change (wp (notebook W) (State env [])
            (fun s' _ => Forall (store_call_ok (dotenv_values W ∪ env)) (calls s')
                         ∧ queries_follow_indexing false (calls s') = true)).
  unfold notebook.
  apply wp_bind. eapply wp_conseq; [apply before_evaluation_trace |].
  intros s1 r1 (Hstore & Hscan & Hret).
  destruct r1 as [u|e]; [| auto].
  destruct Hret as [Henv Hidx].
  apply wp_bind. eapply wp_conseq; [apply loop_shape |].
  intros s2 r2 (_ & cs & Hc & Hloop & _ & _).
  assert (Hstore2 : Forall (store_call_ok (dotenv_values W ∪ env)) (calls s2)).
  { rewrite Hc. apply Forall_app. split; [exact Hstore |].
    now apply store_call_ok_loop. }
  assert (Hscan2 : queries_follow_indexing false (calls s2) = true).
  { rewrite Hc, queries_follow_indexing_app, Hscan, Hidx. simpl.
    apply queries_follow_indexing_true. }
  assert (Hidx2 : existsb is_from_documents (calls s2) = true).
  { rewrite Hc, existsb_app, Hidx. reflexivity. }
  destruct r2 as [u2|e2]; [| auto].
  eapply wp_conseq; [apply report_trace |].
  intros s3 r3 (cs3 & Hc3 & Hrep). rewrite Hc3. split.
  - apply Forall_app. split; [exact Hstore2 |]. now apply store_call_ok_report.
  - rewrite queries_follow_indexing_app, Hscan2, Hidx2. simpl.
    apply queries_follow_indexing_true.
Qed.

End RunInvariants.

Section RunTheorems.
Import Py Lib Run Redis Notebook Spec Worlds Checks.

(** X9. In every run, whatever the environment and the libraries do, the
    vector store is only ever opened as index [chevy_docs] with prefix
    [blog] and [overwrite=True], at the non-TLS connection string built
    from the environment in force after [load_dotenv]. *)
Theorem vector_store_call_arguments (W : World) (env : environ)
    (index_name index_prefix redis_url : string) (overwrite : bool) :
  RedisVectorStore index_name index_prefix redis_url overwrite
    ∈ calls (run_all W env).1 ->
  index_name = "chevy_docs" ∧ index_prefix = "blog" ∧ overwrite = true
  ∧ redis_url = format_redis_conn_from_env (dotenv_values W ∪ env) false.
Proof.
  intros Hin.
  destruct (run_trace W env) as [Hall _].
  rewrite Forall_forall in Hall.
  exact (Hall _ Hin).
Qed.

Lemma vector_store_call_arguments_witness :
  "chevy_docs" = "chevy_docs" ∧ "blog" = "blog" ∧ true = true
  ∧ "redis://localhost:6379"
    = format_redis_conn_from_env (dotenv_values quiet_world ∪ full_env) false.
Proof.
  apply (vector_store_call_arguments quiet_world full_env).
  vm_compute.
  repeat first [apply list_elem_of_here | apply list_elem_of_further].
Defined.

(** X10. In every run, a question is put to the query engine only after
    [GPTVectorStoreIndex.from_documents] has been called: every [query]
    call in the trace has a [from_documents] call before it. *)
Theorem queries_only_after_indexing (W : World) (env : environ)
    (pre : list call) (q : string) (post : list call) :
  calls (run_all W env).1 = pre ++ Query q :: post ->
  FromDocuments ∈ pre.
Proof.
  intros Heq.
  destruct (run_trace W env) as [_ Hscan].
  destruct (queries_follow_indexing_sound _ _ _ _ _ Hscan Heq) as [Hb | Hin];
    [discriminate | exact Hin].
Qed.

Lemma queries_only_after_indexing_witness :
  FromDocuments ∈ take 14 (calls (run_all quiet_world full_env).1).
Proof.
  apply (queries_only_after_indexing quiet_world full_env
           (take 14 (calls (run_all quiet_world full_env).1))
           "What types of variants are available for the Chevrolet Colorado?"
           (drop 15 (calls (run_all quiet_world full_env).1))).
  vm_compute. reflexivity.
Defined.

End RunTheorems.

(** ** How a run ends *)

Section RunOutcomes.
Import Py Lib Run Redis Notebook Spec Worlds Checks.
Context (W : World).

Lemma wp_lib_ok c s Q :
  libraries_succeed W ->
  Q (State (os_environ s) (calls s ++ [c])) (Returned tt) ->
  wp (lib W c) s Q.
Proof. intros Hs HQ. unfold wp, lib. now rewrite (Hs (calls s) c). Qed.

Lemma cell_147e7678_some s num_output max_input_size max_chunk_overlap :
  numeric_settings W (os_environ s)
  = Some (num_output, max_input_size, max_chunk_overlap) ->
  cell_147e7678 W s
  = lib W (PromptHelper max_input_size num_output max_chunk_overlap) s.
Proof.
  unfold numeric_settings, cell_147e7678, os_getenv, get_environ, int, float_.
  cbv [mbind M_bind mret M_ret mthrow M_throw option_bind].
  rewrite !getenv_None.
  destruct (os_environ s !! "OPENAI_MAX_TOKENS") as [t|]; [| discriminate].
  destruct (int_of_str W t); [| discriminate].
  rewrite !getenv_None.
  destruct (os_environ s !! "CHUNK_SIZE") as [c|]; [| discriminate].
  destruct (int_of_str W c); [| discriminate].
  rewrite !getenv_None.
  destruct (os_environ s !! "CHUNK_OVERLAP") as [o|]; [| discriminate].
  destruct (float_of_str W o); [| discriminate].
  now intros [= -> -> ->].
Qed.

Lemma cell_147e7678_none s :
  numeric_settings W (os_environ s) = None ->
  ∃ e, cell_147e7678 W s = (s, Raised e).
Proof.
  unfold numeric_settings, cell_147e7678, os_getenv, get_environ, int, float_.
  cbv [mbind M_bind mret M_ret mthrow M_throw option_bind].
  rewrite !getenv_None.
  destruct (os_environ s !! "OPENAI_MAX_TOKENS") as [t|]; [| eauto].
  destruct (int_of_str W t); [| eauto].
  rewrite !getenv_None.
  destruct (os_environ s !! "CHUNK_SIZE") as [c|]; [| eauto].
  destruct (int_of_str W c); [| eauto].
  rewrite !getenv_None.
  destruct (os_environ s !! "CHUNK_OVERLAP") as [o|]; [| eauto].
  destruct (float_of_str W o); [discriminate | eauto].
Qed.

(** When no library call raises, the loop returns. *)
Lemma loop_ok (Hs : libraries_succeed W) qs : ∀ s,
  wp (cell_6572b079 W qs) s (fun _ r => r = Returned tt).
Proof.
  unfold cell_6572b079.
  induction qs as [|q qs IH]; intros s; simpl; [now apply wp_ret |].
  unfold record_query at 1. unfold with_recorder.
  apply wp_bind. apply wp_bind. apply (wp_lib_ok _ _ _ Hs).
  apply wp_bind. apply wp_try. apply (wp_lib_ok _ _ _ Hs).
  apply (wp_lib_ok _ _ _ Hs). apply IH.
Qed.

End RunOutcomes.

(** Symbolic execution when every library call returns. *)
Ltac wp_ok Hs :=
  repeat first
    [ lazymatch goal with
      | |- Run.wp (mbind _ _) _ _ => apply wp_bind
      | |- Run.wp (mret _) _ _ => apply wp_ret
      | |- Run.wp (mthrow _) _ _ => apply wp_throw
      | |- Run.wp (Run.lib _ _) _ _ => apply (wp_lib_ok _ _ _ _ Hs)
      | |- Run.wp Run.get_environ _ _ => apply wp_get_environ
      | |- Run.wp (Run.set_environ _) _ _ => apply wp_set_environ
      | |- Run.wp (Run.os_getenv _ _) _ _ => apply wp_os_getenv
      end; cbn [Run.os_environ Run.calls]
    | progress cbv beta iota ].

Section RunOutcomeTheorems.
Import Py Lib Run Redis Notebook Spec Worlds Checks.

Lemma run_returns (W : World) (env : environ) :
  libraries_succeed W ->
  documents_found W ≠ [] ->
  is_Some (numeric_settings W (dotenv_values W ∪ env)) ->
  (run_all W env).2 = Returned tt.
Proof.
  intros Hs Hdocs [[[n m] o] Hnum].
  unfold run_all.
  change (wp (notebook W) (State env []) (fun _ r => r = Returned tt)).
  unfold notebook, before_evaluation, setup, ingest_and_query, define_feedback,
    report,
    cell_949e6cf1, cell_47264e32, cell_b917ab1f, cell_32a77108, cell_c67d58db,
    cell_68cbd239, cell_132b7b01, cell_fd85f591, cell_30b0d59f,
    cell_ba1558b3, cell_35369eda, cell_99212d33, cell_4a028452, cell_0a2b908c,
    cell_5bcb03f9, cell_09bf4523, cell_e20e85c4, cell_56e79c1d, cell_d8aa5973,
    cell_3ddb1ac9, cell_cb1de2fd, cell_341afb0f, cell_9c639f5c, cell_4032aa97,
    cell_6c6a18e4, cell_0edca9cb.
  destruct (documents_found W) as [|d ds]; [congruence |].
  cbn [item0].
  wp_ok Hs.
  eapply wp_eq; [apply cell_147e7678_some; exact Hnum |].
  wp_ok Hs.
  eapply wp_conseq; [apply (loop_ok W Hs) |].
  intros s' r ->.
  wp_ok Hs.
  reflexivity.
Qed.

Lemma run_raises_without_settings (W : World) (env : environ) :
  numeric_settings W (dotenv_values W ∪ env) = None ->
  ∃ e, (run_all W env).2 = Raised e.
Proof.
  intros Hnum.
  unfold run_all, notebook, before_evaluation.
  destruct (setup W (State env [])) as [s1 [az|e]] eqn:Hsetup.
  - destruct (wp_run _ _ _ (setup_spec W _) _ _ Hsetup) as [_ [Henv _]].
    simpl in Henv. rewrite <- Henv in Hnum.
    destruct (cell_147e7678_none W s1 Hnum) as (e & Hcell).
    exists e.
    erewrite bind_raised; [reflexivity |].
    rewrite (bind_returned _ _ _ _ _ Hsetup).
    apply bind_raised. exact Hcell.
  - exists e.
    erewrite bind_raised; [reflexivity |].
    apply bind_raised. exact Hsetup.
Qed.

(** X11. When no library call raises and a document is found, the run
    completes exactly when [OPENAI_MAX_TOKENS], [CHUNK_SIZE] and
    [CHUNK_OVERLAP] are set (in the environment or [.env]) and parse: no
    other variable is needed by the notebook's own code. *)
Theorem run_completes_iff_numeric_settings (W : World) (env : environ) :
  libraries_succeed W ->
  documents_found W ≠ [] ->
  (run_all W env).2 = Returned tt
  ↔ is_Some (numeric_settings W (dotenv_values W ∪ env)).
Proof.
  intros Hs Hdocs. split.
  - intros Hret.
    destruct (numeric_settings W (dotenv_values W ∪ env)) eqn:Hnum; [eauto |].
    destruct (run_raises_without_settings W env Hnum) as (e & He).
    congruence.
  - now apply run_returns.
Qed.

Lemma run_completes_iff_numeric_settings_witness :
  (run_all quiet_world numeric_only_env).2 = Returned tt
  ↔ is_Some (numeric_settings quiet_world
               (dotenv_values quiet_world ∪ numeric_only_env)).
Proof.
  apply (run_completes_iff_numeric_settings quiet_world numeric_only_env).
  - intros h c. reflexivity.
  - discriminate.
Defined.

(** X12. When no library call raises but the reader returns no document,
    the run stops with [IndexError] at [documents[0]] in the loading
    cell: [load_data] is the last call made. *)
Theorem empty_document_list_stops_run (W : World) (env : environ) :
  libraries_succeed W ->
  documents_found W = [] ->
  (run_all W env).2 = Raised IndexError
  ∧ last (calls (run_all W env).1) = Some (LoadData "./docs").
Proof.
  intros Hs Hdocs.
  unfold run_all.
  change (wp (notebook W) (State env [])
            (fun s' r => r = Raised IndexError
                         ∧ last (calls s') = Some (LoadData "./docs"))).
  unfold notebook, before_evaluation, setup,
    cell_949e6cf1, cell_47264e32, cell_b917ab1f, cell_32a77108, cell_c67d58db,
    cell_68cbd239.
  rewrite Hdocs. cbn [item0].
  wp_ok Hs.
  split; [reflexivity |]. now rewrite last_snoc.
Qed.

Lemma empty_document_list_stops_run_witness :
  (run_all empty_docs_world full_env).2 = Raised IndexError
  ∧ last (calls (run_all empty_docs_world full_env).1) = Some (LoadData "./docs").
Proof.
  apply (empty_document_list_stops_run empty_docs_world full_env).
  - intros h c. reflexivity.
  - reflexivity.
Defined.

End RunOutcomeTheorems.
